(** * A shallow embedding of the codecrafters HTTP server (src/main.rs)

    Rust [String]s are modelled as lists of Unicode scalar values
    ([list Z]); raw bytes ([u8]) are [list Z] with values in 0..255.
    [String::len] is the length of the UTF-8 encoding.
    [HashMap<String, String>] is a [gmap (list Z) (list Z)]. *)

From Stdlib Require Import ZArith String Ascii.
From stdpp Require Import base list gmap.

Open Scope Z_scope.

Abbreviation char := Z.
Abbreviation rstring := (list Z).
Abbreviation bytes := (list Z).

(** Rust string literals, written as Stdlib ASCII strings. *)
Definition str (s : string) : rstring :=
  map (fun a => Z.of_nat (nat_of_ascii a)) (list_ascii_of_string s).

Definition CR : char := 13.
Definition LF : char := 10.
Definition crlf : rstring := [CR; LF].
Definition sep : rstring := [CR; LF; CR; LF].

(** ** UTF-8 decoding, as [core::str::from_utf8] and
    [String::from_utf8_lossy] see it.

    [utf8_chunks] walks the bytes like [run_utf8_validation]: a valid
    sequence gives [Some c]; an invalid one gives [None], consuming the
    maximal prefix of a valid sequence (the error length, 1 to 3 bytes),
    or all remaining bytes when the input ends inside a sequence. *)

Definition is_cont (b : Z) : bool := (0x80 <=? b) && (b <=? 0xBF).

Definition in_range (lo hi b : Z) : bool := (lo <=? b) && (b <=? hi).

(** Width of a sequence from its first byte ([utf8_char_width]). *)
Definition utf8_char_width (b : Z) : nat :=
  if b <? 0x80 then 1%nat
  else if in_range 0xC2 0xDF b then 2%nat
  else if in_range 0xE0 0xEF b then 3%nat
  else if in_range 0xF0 0xF4 b then 4%nat
  else 0%nat.

(** Allowed second bytes for 3- and 4-byte sequences. *)
Definition second3_ok (b0 b1 : Z) : bool :=
  if b0 =? 0xE0 then in_range 0xA0 0xBF b1
  else if b0 =? 0xED then in_range 0x80 0x9F b1
  else is_cont b1.

Definition second4_ok (b0 b1 : Z) : bool :=
  if b0 =? 0xF0 then in_range 0x90 0xBF b1
  else if b0 =? 0xF4 then in_range 0x80 0x8F b1
  else is_cont b1.

Definition cp2 (b0 b1 : Z) : char :=
  Z.lor (Z.shiftl (Z.land b0 0x1F) 6) (Z.land b1 0x3F).
Definition cp3 (b0 b1 b2 : Z) : char :=
  Z.lor (Z.shiftl (Z.land b0 0x0F) 12)
        (Z.lor (Z.shiftl (Z.land b1 0x3F) 6) (Z.land b2 0x3F)).
Definition cp4 (b0 b1 b2 b3 : Z) : char :=
  Z.lor (Z.shiftl (Z.land b0 0x07) 18)
        (Z.lor (Z.shiftl (Z.land b1 0x3F) 12)
               (Z.lor (Z.shiftl (Z.land b2 0x3F) 6) (Z.land b3 0x3F))).

Fixpoint utf8_chunks (bs : bytes) : list (option char) :=
  match bs with
  | [] => []
  | b0 :: r0 =>
    match utf8_char_width b0 with
    | 1%nat => Some b0 :: utf8_chunks r0
    | 2%nat =>
      match r0 with
      | [] => [None]
      | b1 :: r1 =>
        if is_cont b1 then Some (cp2 b0 b1) :: utf8_chunks r1
        else None :: utf8_chunks r0
      end
    | 3%nat =>
      match r0 with
      | [] => [None]
      | b1 :: r1 =>
        if second3_ok b0 b1 then
          match r1 with
          | [] => [None]
          | b2 :: r2 =>
            if is_cont b2 then Some (cp3 b0 b1 b2) :: utf8_chunks r2
            else None :: utf8_chunks r1
          end
        else None :: utf8_chunks r0
      end
    | 4%nat =>
      match r0 with
      | [] => [None]
      | b1 :: r1 =>
        if second4_ok b0 b1 then
          match r1 with
          | [] => [None]
          | b2 :: r2 =>
            if is_cont b2 then
              match r2 with
              | [] => [None]
              | b3 :: r3 =>
                if is_cont b3 then Some (cp4 b0 b1 b2 b3) :: utf8_chunks r3
                else None :: utf8_chunks r2
              end
            else None :: utf8_chunks r1
          end
        else None :: utf8_chunks r0
      end
    | _ => None :: utf8_chunks r0
    end
  end.

Definition REPLACEMENT_CHARACTER : char := 0xFFFD.

(** [String::from_utf8_lossy]: each invalid chunk becomes U+FFFD. *)
Definition from_utf8_lossy (bs : bytes) : rstring :=
  map (fun o => match o with Some c => c | None => REPLACEMENT_CHARACTER end)
      (utf8_chunks bs).

(** [String::from_utf8]: fails on any invalid chunk. *)
Definition from_utf8 (bs : bytes) : option rstring :=
  mapM (fun o => o) (utf8_chunks bs).

(** UTF-8 encoding ([str::as_bytes]). *)
Definition encode_char (c : char) : bytes :=
  if c <? 0x80 then [c]
  else if c <? 0x800 then
    [Z.lor 0xC0 (Z.shiftr c 6); Z.lor 0x80 (Z.land c 0x3F)]
  else if c <? 0x10000 then
    [Z.lor 0xE0 (Z.shiftr c 12); Z.lor 0x80 (Z.land (Z.shiftr c 6) 0x3F);
     Z.lor 0x80 (Z.land c 0x3F)]
  else
    [Z.lor 0xF0 (Z.shiftr c 18); Z.lor 0x80 (Z.land (Z.shiftr c 12) 0x3F);
     Z.lor 0x80 (Z.land (Z.shiftr c 6) 0x3F); Z.lor 0x80 (Z.land c 0x3F)].

Definition as_bytes (s : rstring) : bytes := concat (map encode_char s).

(** [String::len]: the byte length. *)
Definition len (s : rstring) : nat := length (as_bytes s).

(** ** The [str] methods the server uses *)

(** [haystack.starts_with(p)] *)
Fixpoint starts_with (p s : rstring) : bool :=
  match p, s with
  | [], _ => true
  | c :: p', d :: s' => (c =? d) && starts_with p' s'
  | _ :: _, [] => false
  end.

(** [s.split_once(p)]: split around the first occurrence of [p]
    (a non-empty pattern). *)
Fixpoint split_once (p s : rstring) : option (rstring * rstring) :=
  if starts_with p s then Some ([], drop (length p) s)
  else match s with
       | [] => None
       | c :: s' =>
         match split_once p s' with
         | Some (a, b) => Some (c :: a, b)
         | None => None
         end
       end.

(** [char::is_whitespace] (the Unicode White_Space property). *)
Definition is_whitespace (c : char) : bool :=
  in_range 9 13 c || (c =? 32) || (c =? 0x85) || (c =? 0xA0)
  || (c =? 0x1680) || in_range 0x2000 0x200A c || (c =? 0x2028)
  || (c =? 0x2029) || (c =? 0x202F) || (c =? 0x205F) || (c =? 0x3000).

(** [s.split_whitespace()]: the maximal runs of non-whitespace
    characters; [cur] is the current run, reversed. *)
Fixpoint split_ws_aux (s cur : rstring) : list rstring :=
  match s with
  | [] => match cur with [] => [] | _ => [rev cur] end
  | c :: s' =>
    if is_whitespace c then
      match cur with
      | [] => split_ws_aux s' []
      | _ => rev cur :: split_ws_aux s' []
      end
    else split_ws_aux s' (c :: cur)
  end.

Definition split_whitespace (s : rstring) : list rstring := split_ws_aux s [].

(** [usize::to_string]: decimal digits. *)
Fixpoint digits_aux (fuel n : nat) (acc : rstring) : rstring :=
  match fuel with
  | O => acc
  | S f =>
    let acc' := (48 + Z.of_nat (n mod 10)) :: acc in
    if (n <? 10)%nat then acc' else digits_aux f (n / 10) acc'
  end.

Definition usize_to_string (n : nat) : rstring := digits_aux (S n) n [].

(** ** Panics, and the result type of code that may panic *)

Inductive fault :=
| ExpectFailed (msg : string)   (** [Option::expect] on [None] *)
| UnwrapNone                    (** [Option::unwrap] on [None] *)
| StatusNotSupported.           (** the [panic!] of [HttpResponse::new] *)

Inductive res (A : Type) :=
| Ok (a : A)
| Panic (f : fault).
Arguments Ok {A} a.
Arguments Panic {A} f.

Global Instance res_ret : MRet res := fun A a => Ok a.
Global Instance res_bind : MBind res := fun A B k m =>
  match m with Ok a => k a | Panic f => Panic f end.

Ltac res_simpl := cbv [mret mbind res_ret res_bind] in *.

Definition expect {A} (msg : string) (o : option A) : res A :=
  match o with Some a => Ok a | None => Panic (ExpectFailed msg) end.

Definition unwrap {A} (o : option A) : res A :=
  match o with Some a => Ok a | None => Panic UnwrapNone end.

(** [Iterator::map(..).collect::<HashMap<_, _>>()] with a panicking
    closure: the entries are inserted in order (a later key overwrites an
    earlier one); the first panic aborts the collection. *)
Fixpoint collect_map {A} (f : A -> res (rstring * rstring))
    (m : gmap rstring rstring) (l : list A) : res (gmap rstring rstring) :=
  match l with
  | [] => Ok m
  | x :: l' => kv ← f x; collect_map f (<[kv.1 := kv.2]> m) l'
  end.

(** [slice.chunks(2)] *)
Fixpoint chunks2 {A} (l : list A) : list (list A) :=
  match l with
  | [] => []
  | [x] => [[x]]
  | x :: y :: l' => [x; y] :: chunks2 l'
  end.

(** ** [HttpRequest::from_byte_array] *)

Record HttpRequest := {
  verb : rstring;
  path : rstring;
  protocol : rstring;
  headers : gmap rstring rstring;
  body : rstring
}.

(** The closure of the header [map]: the name is the part of [x[0]]
    before its first [':'] ([split_once(':').unwrap().0]). *)
Definition header_of_chunk (x : list rstring) : res (rstring * rstring) :=
  match x with
  | [x0; x1] => nv ← unwrap (split_once [58] x0); mret (nv.1, x1)
  | _ => Panic UnwrapNone   (* index out of bounds; filtered out before *)
  end.

Definition parse_headers (rest : list rstring) : res (gmap rstring rstring) :=
  collect_map header_of_chunk ∅
    (filter (fun x => length x = 2%nat) (chunks2 rest)).

Definition from_byte_array (buf : bytes) : res HttpRequest :=
  let data := from_utf8_lossy buf in
  let '(parts, body) :=
    match split_once sep data with Some pb => pb | None => ([], []) end in
  match split_whitespace parts with
  | [] => Panic (ExpectFailed "Request should contains verb")
  | [_] => Panic (ExpectFailed "Request should contains path")
  | [_; _] => Panic (ExpectFailed "Request should contains protocol")
  | verb :: path :: protocol :: rest =>
    headers ← parse_headers rest;
    mret {| verb := verb; path := path; protocol := protocol;
            headers := headers; body := body |}
  end.

(** ** [HttpResponse] *)

Record HttpResponse := {
  rbody : rstring;
  rprotocol : rstring;
  status : rstring;
  rheaders : gmap rstring rstring
}.

Definition HttpResponse_new (body protocol : rstring) (status : Z)
    : res HttpResponse :=
  st ← (if status =? 200 then mret (str "200 OK")
        else if status =? 404 then mret (str "404 Not Found")
        else if status =? 201 then mret (str "201 Created")
        else Panic StatusNotSupported);
  mret {| rbody := body; rprotocol := protocol; status := st;
          rheaders := ∅ |}.

Definition prepare_plain_text_headers (r : HttpResponse) : HttpResponse :=
  let h := <[str "Content-Type" := str "text/plain"]> (rheaders r) in
  let h := <[str "Content-Length" := usize_to_string (len (rbody r))]> h in
  {| rbody := rbody r; rprotocol := rprotocol r; status := status r;
     rheaders := h |}.

Definition prepare_octet_stream_headers (r : HttpResponse) : HttpResponse :=
  let h := <[str "Content-Type" := str "application/octet-stream"]>
             (rheaders r) in
  let h := <[str "Content-Length" := usize_to_string (len (rbody r))]> h in
  {| rbody := rbody r; rprotocol := rprotocol r; status := status r;
     rheaders := h |}.

(** [impl Display for HttpResponse], for the header entries listed in
    the iteration order [entries] of the map. *)
Definition fmt_entries (r : HttpResponse) (entries : list (rstring * rstring))
    : rstring :=
  let response := rprotocol r ++ [32] ++ status r in
  let response :=
    foldl (fun acc kv => acc ++ crlf ++ kv.1 ++ [58; 32] ++ kv.2)
          response entries in
  let response :=
    match rbody r with
    | [] => response
    | _ => response ++ sep ++ rbody r
    end in
  response ++ sep.

(** [HashMap] iteration order is unspecified; [map_to_list] stands for
    it. *)
Definition to_string (r : HttpResponse) : rstring :=
  fmt_entries r (map_to_list (rheaders r)).

(** ** The file system and the configuration *)

(** [files] maps a path string to the file's bytes; writing to a path
    in [unwritable] fails. *)
Record FS := {
  files : gmap rstring bytes;
  unwritable : gset rstring
}.

(** [Path::exists] *)
Definition fs_exists (fs : FS) (p : rstring) : bool :=
  bool_decide (is_Some (files fs !! p)).

(** [fs::read_to_string]: fails on a missing file or invalid UTF-8. *)
Definition fs_read_to_string (fs : FS) (p : rstring) : option rstring :=
  b ← files fs !! p; from_utf8 b.

(** [fs::write]: creates or overwrites; the [bool] is [is_ok()]. *)
Definition fs_write (fs : FS) (p : rstring) (data : bytes) : bool * FS :=
  if bool_decide (p ∈ unwritable fs) then (false, fs)
  else (true, {| files := <[p := data]> (files fs);
                 unwritable := unwritable fs |}).

Record Args := { directory : option rstring }.

(** ** [process] *)

(** One [stream.read(&mut buf)] into the zeroed 1024-byte buffer: the
    first 1024 bytes of [chunk] (the data the peer has sent) are copied,
    the rest of [buf] stays zero. *)
Definition BUF_SIZE : nat := 1024.

Definition read_buf (chunk : bytes) : bytes :=
  take BUF_SIZE chunk ++ replicate (BUF_SIZE - length chunk) 0.

Definition file_path (dir filename : rstring) : rstring :=
  dir ++ [47] ++ filename.

(** The outcome: [Ok r] means [r.to_string()] is written back; [Panic]
    means the task of this connection panicked and nothing is written. *)
Definition process (arg : Args) (fs : FS) (chunk : bytes)
    : res HttpResponse * FS :=
  match from_byte_array (read_buf chunk) with
  | Panic f => (Panic f, fs)
  | Ok request =>
    let is_get := bool_decide (verb request = str "GET") in
    let is_post := bool_decide (verb request = str "POST") in
    if is_get && bool_decide (path request = str "/") then
      (HttpResponse_new [] (protocol request) 200, fs)
    else if is_get && starts_with (str "/echo/") (path request) then
      (echo ← expect "Echo should contain content"
                (split_once (str "/echo/") (path request));
       r ← HttpResponse_new echo.2 (protocol request) 200;
       mret (prepare_plain_text_headers r), fs)
    else if is_get && bool_decide (path request = str "/user-agent") then
      (ua ← unwrap (headers request !! str "User-Agent");
       r ← HttpResponse_new ua (protocol request) 200;
       mret (prepare_plain_text_headers r), fs)
    else if is_get && starts_with (str "/files/") (path request) then
      (filename ← unwrap (split_once (str "/files") (path request));
       dir ← unwrap (directory arg);
       let p := file_path dir filename.2 in
       if fs_exists fs p then
         (body ← expect "Read file always sucuess" (fs_read_to_string fs p);
          r ← HttpResponse_new body (protocol request) 200;
          mret (prepare_octet_stream_headers r))
       else HttpResponse_new [] (protocol request) 404, fs)
    else if is_post && starts_with (str "/files/") (path request) then
      match unwrap (split_once (str "/files") (path request)) with
      | Panic f => (Panic f, fs)
      | Ok filename =>
        match unwrap (directory arg) with
        | Panic f => (Panic f, fs)
        | Ok dir =>
          let p := file_path dir filename.2 in
          let fs' := (fs_write fs p (as_bytes (body request))).2 in
          (HttpResponse_new [] (protocol request) 201, fs')
        end
      end
    else (HttpResponse_new [] (protocol request) 404, fs)
  end.

(** The bytes written back on the connection, if any. *)
Definition wire (o : res HttpResponse) : option bytes :=
  match o with Ok r => Some (as_bytes (to_string r)) | Panic _ => None end.


(** * Further definitions: spec-side readings and test inputs *)

(** [t] does not start with a continuation byte. *)
Definition no_cont_head (t : bytes) : Prop :=
  match t with [] => True | b :: _ => is_cont b = false end.


(** The tokens after the request line taken two at a time, an unpaired
    last token dropped; the name is the first token up to its first
    [':'] ([None] when some name token has no [':']). *)
Fixpoint header_pairs (toks : list rstring) : option (list (rstring * rstring)) :=
  match toks with
  | n :: v :: rest =>
    match split_once [58] n with
    | Some (name, _) => (fun ps => (name, v) :: ps) <$> header_pairs rest
    | None => None
    end
  | _ => Some []
  end.

(** The map built from pairs inserted in order: a later pair wins. *)
Definition insert_all (m : gmap rstring rstring) (ps : list (rstring * rstring))
    : gmap rstring rstring :=
  foldl (fun acc kv => <[kv.1 := kv.2]> acc) m ps.

(** The header name as the claim words it: the token with a trailing
    colon removed. *)
Definition strip_trailing_colon (t : rstring) : rstring :=
  if bool_decide (last t = Some 58) then removelast t else t.


Definition valid_status (s : rstring) : Prop :=
  s = str "200 OK" \/ s = str "201 Created" \/ s = str "404 Not Found".

Definition fs_empty : FS := {| files := ∅; unwritable := ∅ |}.
Definition args_tmp : Args := {| directory := Some (str "/tmp") |}.
Definition args_none : Args := {| directory := None |}.

(** A request line without the blank line that ends the head. *)
Definition truncated_get : bytes := str "GET / HTTP/1.1".

(** Concrete requests for the witnesses. *)
Definition dummy_req : HttpRequest :=
  {| verb := []; path := []; protocol := []; headers := ∅; body := [] |}.

Definition ok_or {A} (d : A) (m : res A) : A :=
  match m with Ok a => a | Panic _ => d end.

Definition parsed (chunk : bytes) : HttpRequest :=
  ok_or dummy_req (from_byte_array (read_buf chunk)).

Definition ua_request : bytes :=
  str "GET /user-agent HTTP/1.1" ++ crlf ++
  str "User-Agent: curl/8.0" ++ crlf ++ crlf.

Definition post_request : bytes :=
  str "POST /files/report.txt HTTP/1.1" ++ crlf ++ crlf ++ str "hello".

Definition get_file_request : bytes :=
  str "GET /files/report.txt HTTP/1.1" ++ crlf ++ crlf.

Definition fs_readonly : FS :=
  {| files := ∅; unwritable := {[ str "/tmp//report.txt" ]} |}.

Definition colon_in_value_request : bytes :=
  str "GET / HTTP/1.1" ++ crlf ++ str "X-Id:a: 1" ++ crlf ++ crlf.

Definition colonless_request : bytes :=
  str "GET / HTTP/1.1" ++ crlf ++ str "Host localhost" ++ crlf ++ crlf.






Definition dummy_resp : HttpResponse :=
  {| rbody := []; rprotocol := []; status := []; rheaders := ∅ |}.

(** The files after [POST /files/report.txt] with body "hello", served
    from [/tmp]. *)
Definition fs_after_post : FS := (process args_tmp fs_empty post_request).2.

Definition get_after_post : HttpResponse :=
  ok_or dummy_resp (process args_tmp fs_after_post get_file_request).1.

(** * Lemmas about the string layer *)

Lemma starts_with_length p s :
  starts_with p s = true -> (length p <= length s)%nat.
Proof.
  revert s; induction p as [|c p IH]; intros [|d s] H; cbn in *; try lia; try discriminate.
  - apply andb_true_iff in H as [_ H]; specialize (IH s H); lia.
Qed.

Lemma starts_with_app_l p s t :
  starts_with p s = true -> starts_with p (s ++ t) = true.
Proof.
  revert s; induction p as [|c p IH]; intros [|d s] H; cbn in *; auto; try discriminate.
  - apply andb_true_iff in H as [-> H]; cbn; auto.
Qed.

Lemma starts_with_app_long p s t :
  (length p <= length s)%nat -> starts_with p (s ++ t) = starts_with p s.
Proof.
  revert s; induction p as [|c p IH]; intros [|d s]; cbn; auto; try lia.
  intros; rewrite IH; auto; lia.
Qed.


Lemma split_once_length p s a b :
  split_once p s = Some (a, b) -> (length p <= length s)%nat.
Proof.
  revert a b; induction s as [|c s IH]; intros a b; cbn.
  - destruct (starts_with p []) eqn:E; [intros _; apply starts_with_length in E; done|].
    discriminate.
  - destruct (starts_with p (c :: s)) eqn:E.
    + intros _; apply starts_with_length in E; done.
    + destruct (split_once p s) as [[a' b']|] eqn:E'; [|discriminate].
      intros _; specialize (IH a' b' eq_refl); cbn; lia.
Qed.

(** A match found in [s] is still the first match in [s ++ t]. *)
Lemma split_once_app p s t a b :
  split_once p s = Some (a, b) -> split_once p (s ++ t) = Some (a, b ++ t).
Proof.
  revert a; induction s as [|c s IH]; intros a H.
  - cbn in H |- *. destruct (starts_with p []) eqn:E; [|discriminate].
    apply starts_with_length in E. destruct p; cbn in *; [|lia].
    injection H as <- <-; destruct t; reflexivity.
  - pose proof (split_once_length _ _ _ _ H) as Hl.
    pose proof (starts_with_app_long p (c :: s) t Hl) as Hs.
    cbn [app] in Hs. cbn in H |- *. rewrite Hs.
    destruct (starts_with p (c :: s)) eqn:E.
    + injection H as <- <-. f_equal. f_equal.
      rewrite <- drop_app_le by exact Hl; reflexivity.
    + destruct (split_once p s) as [[a' b']|] eqn:E'; [|discriminate].
      injection H as <- <-. rewrite (IH a' eq_refl). reflexivity.
Qed.



(** ** Decoding lemmas *)

Lemma second3_cont b0 b1 : second3_ok b0 b1 = true -> is_cont b1 = true.
Proof.
  unfold second3_ok, in_range, is_cont.
  destruct (b0 =? 0xE0), (b0 =? 0xED);
    rewrite ?andb_true_iff, ?Z.leb_le; lia.
Qed.

Lemma second4_cont b0 b1 : second4_ok b0 b1 = true -> is_cont b1 = true.
Proof.
  unfold second4_ok, in_range, is_cont.
  destruct (b0 =? 0xF0), (b0 =? 0xF4);
    rewrite ?andb_true_iff, ?Z.leb_le; lia.
Qed.

(** The input ends inside a sequence: the next byte of [t], if any, is
    not a continuation byte, so the sequence is cut there as well. *)
Ltac no_cont_tail Ht :=
  cbn [app];
  unfold no_cont_head in Ht;
  match goal with
  | |- context [match ?t with [] => _ | _ :: _ => _ end] =>
    destruct t as [|b t']; cbn [app] in Ht |- *;
    [reflexivity
    | rewrite ?Ht;
      repeat match goal with
      | |- context [second3_ok ?x b] =>
        let E := fresh in
        destruct (second3_ok x b) eqn:E;
        [apply second3_cont in E; congruence|]
      | |- context [second4_ok ?x b] =>
        let E := fresh in
        destruct (second4_ok x b) eqn:E;
        [apply second4_cont in E; congruence|]
      end; reflexivity]
  end.

Ltac chunks_step IH :=
  repeat match goal with
  | |- context [utf8_chunks (?l ++ ?t)] => rewrite (IH l) by (cbn; lia)
  end.

(** Decoding is compositional at a boundary where no continuation byte
    follows: an unfinished sequence at the end of [s] is cut there. *)
Lemma utf8_chunks_app s t :
  no_cont_head t -> utf8_chunks (s ++ t) = utf8_chunks s ++ utf8_chunks t.
Proof.
  intros Ht.
  induction s as [s IH] using (induction_ltof1 _ (@length Z)).
  unfold ltof in IH.
  destruct s as [|b0 r0]; [reflexivity|].
  cbn [app utf8_chunks].
  destruct (utf8_char_width b0) as [|[|[|[|[|w]]]]]; chunks_step IH;
    try reflexivity.
  - destruct r0 as [|b1 r1]; [no_cont_tail Ht|].
    cbn [app]. chunks_step IH. destruct (is_cont b1); reflexivity.
  - destruct r0 as [|b1 r1]; [no_cont_tail Ht|].
    cbn [app]. chunks_step IH. destruct (second3_ok b0 b1); [|reflexivity].
    destruct r1 as [|b2 r2]; [no_cont_tail Ht|].
    cbn [app]. chunks_step IH. destruct (is_cont b2); reflexivity.
  - destruct r0 as [|b1 r1]; [no_cont_tail Ht|].
    cbn [app]. chunks_step IH. destruct (second4_ok b0 b1); [|reflexivity].
    destruct r1 as [|b2 r2]; [no_cont_tail Ht|].
    cbn [app]. chunks_step IH. destruct (is_cont b2); [|reflexivity].
    destruct r2 as [|b3 r3]; [no_cont_tail Ht|].
    cbn [app]. chunks_step IH. destruct (is_cont b3); reflexivity.
Qed.

Lemma utf8_chunks_zeros k : utf8_chunks (replicate k 0) = replicate k (Some 0).
Proof. induction k as [|k IH]; cbn; [done|]. rewrite IH; reflexivity. Qed.

Lemma from_utf8_lossy_pad s k :
  from_utf8_lossy (s ++ replicate k 0) = from_utf8_lossy s ++ replicate k 0.
Proof.
  unfold from_utf8_lossy. rewrite utf8_chunks_app.
  - rewrite map_app, utf8_chunks_zeros. f_equal.
    induction k as [|k IH]; cbn; congruence.
  - destruct k; cbn; reflexivity.
Qed.




Lemma read_buf_short chunk :
  (length chunk <= BUF_SIZE)%nat ->
  read_buf chunk = chunk ++ replicate (BUF_SIZE - length chunk) 0.
Proof. intros H. unfold read_buf. rewrite take_ge by done. reflexivity. Qed.

(** The text [from_byte_array] decodes: the data read, then one U+0000
    for every zero byte of the buffer left unfilled. *)
Lemma decoded_buffer chunk :
  (length chunk <= BUF_SIZE)%nat ->
  from_utf8_lossy (read_buf chunk) =
    from_utf8_lossy chunk ++ replicate (BUF_SIZE - length chunk) 0.
Proof. intros H. rewrite read_buf_short by done. apply from_utf8_lossy_pad. Qed.

(** ** Header parsing, read pairwise *)

Lemma collect_headers_pairwise rest m :
  collect_map header_of_chunk m
    (filter (fun x => length x = 2%nat) (chunks2 rest)) =
  match header_pairs rest with
  | Some ps => Ok (insert_all m ps)
  | None => Panic UnwrapNone
  end.
Proof.
  revert m.
  induction rest as [rest IH] using (induction_ltof1 _ (@length rstring)).
  unfold ltof in IH. intros m.
  destruct rest as [|n [|v rest]]; [reflexivity|reflexivity|].
  cbn [chunks2]. rewrite filter_cons_True by reflexivity.
  cbn [collect_map header_of_chunk header_pairs]. res_simpl.
  destruct (split_once [58] n) as [[name r]|]; [|reflexivity].
  cbn [fst snd unwrap]. rewrite IH by (cbn; lia).
  destruct (header_pairs rest); reflexivity.
Qed.

Lemma from_byte_array_shape (buf h b v p pr : rstring) (rest : list rstring) :
  split_once sep (from_utf8_lossy buf) = Some (h, b) ->
  split_whitespace h = v :: p :: pr :: rest ->
  from_byte_array buf =
    match header_pairs rest with
    | Some ps =>
      Ok {| verb := v; path := p; protocol := pr;
            headers := insert_all ∅ ps; body := b |}
    | None => Panic UnwrapNone
    end.
Proof.
  intros Hs Hw. unfold from_byte_array. rewrite Hs. cbn zeta. rewrite Hw.
  unfold parse_headers. rewrite collect_headers_pairwise.
  destruct (header_pairs rest); reflexivity.
Qed.

(** ** Whitespace splitting *)





(** ** Lemmas about the response builder and the router *)

Lemma new_200 b p : HttpResponse_new b p 200 =
  Ok {| rbody := b; rprotocol := p; status := str "200 OK"; rheaders := ∅ |}.
Proof. reflexivity. Qed.

Lemma new_201 b p : HttpResponse_new b p 201 =
  Ok {| rbody := b; rprotocol := p; status := str "201 Created"; rheaders := ∅ |}.
Proof. reflexivity. Qed.

Lemma new_404 b p : HttpResponse_new b p 404 =
  Ok {| rbody := b; rprotocol := p; status := str "404 Not Found"; rheaders := ∅ |}.
Proof. reflexivity. Qed.

Lemma parse_headers_panic rest f :
  parse_headers rest = Panic f -> f = UnwrapNone.
Proof.
  unfold parse_headers.
  generalize (∅ : gmap rstring rstring) as m.
  induction (filter _ (chunks2 rest)) as [|x l IH]; intros m; cbn; [discriminate|].
  destruct (header_of_chunk x) as [kv|e] eqn:E; cbn; [apply IH|].
  intros [= <-].
  destruct x as [|x0 [|x1 [|? ?]]]; cbn in E; try congruence.
  destruct (split_once _ x0); res_simpl; cbn in E; congruence.
Qed.

Lemma from_byte_array_panic buf f :
  from_byte_array buf = Panic f -> f = UnwrapNone \/ exists msg, f = ExpectFailed msg.
Proof.
  unfold from_byte_array. intros Hp. res_simpl.
  repeat case_match; simplify_eq/=; eauto.
  left. eapply parse_headers_panic; eassumption.
Qed.

Lemma process_status arg fs chunk :
  match (process arg fs chunk).1 with
  | Ok r => valid_status (status r)
  | Panic f => f <> StatusNotSupported
  end.
Proof.
  unfold process.
  destruct (from_byte_array (read_buf chunk)) as [req|f] eqn:P.
  2:{ cbn. apply from_byte_array_panic in P as [->|[msg ->]]; congruence. }
  cbv [mret mbind res_ret res_bind HttpResponse_new expect unwrap].
  cbn [Z.eqb Pos.eqb].
  repeat case_match; cbn [fst] in *; simplify_eq;
    cbn [status prepare_plain_text_headers prepare_octet_stream_headers];
    unfold valid_status; auto; congruence.
Qed.

(** ** One lemma per route of [process] *)

Lemma starts_with_split p s :
  starts_with p s = true -> split_once p s = Some ([], drop (length p) s).
Proof. intros H. destruct s; cbn [split_once]; rewrite H; reflexivity. Qed.

Lemma starts_with_app_inv p q s :
  starts_with (p ++ q) s = true -> starts_with p s = true.
Proof.
  revert s; induction p as [|c p IH]; intros [|d s] H; cbn in *; auto.
  apply andb_true_iff in H as [-> H]; cbn; auto.
Qed.

Lemma files_split s :
  starts_with (str "/files/") s = true ->
  split_once (str "/files") s = Some ([], drop 6 s).
Proof.
  intros H. change (str "/files/") with (str "/files" ++ [47]) in H.
  apply starts_with_app_inv, starts_with_split in H. exact H.
Qed.


Lemma not_root_of_prefix p s :
  starts_with p s = true -> (2 <= length p)%nat -> bool_decide (s = str "/") = false.
Proof.
  intros H Hp. apply bool_decide_eq_false_2. intros ->.
  apply starts_with_length in H. cbn in H. lia.
Qed.

Lemma not_user_agent_of_files s :
  starts_with (str "/files/") s = true -> bool_decide (s = str "/user-agent") = false.
Proof. intros H. apply bool_decide_eq_false_2. intros ->. vm_compute in H. discriminate H. Qed.

Lemma not_echo_of_files s :
  starts_with (str "/files/") s = true -> starts_with (str "/echo/") s = false.
Proof.
  intros H. destruct s as [|c [|d s]]; cbn in H |- *; try discriminate H;
    try (rewrite andb_false_r in H; discriminate H). apply andb_true_iff in H as [-> H].
  apply andb_true_iff in H as [H _]. apply Z.eqb_eq in H as <-. reflexivity.
Qed.

Lemma GET_is_GET : bool_decide (str "GET" = str "GET") = true.
Proof. reflexivity. Qed.
Lemma POST_not_GET : bool_decide (str "POST" = str "GET") = false.
Proof. reflexivity. Qed.
Lemma POST_is_POST : bool_decide (str "POST" = str "POST") = true.
Proof. reflexivity. Qed.
Lemma GET_not_POST : bool_decide (str "GET" = str "POST") = false.
Proof. reflexivity. Qed.


Lemma process_get_user_agent arg fs chunk req :
  from_byte_array (read_buf chunk) = Ok req ->
  verb req = str "GET" -> path req = str "/user-agent" ->
  process arg fs chunk =
    (match headers req !! str "User-Agent" with
     | Some ua => Ok (prepare_plain_text_headers
          {| rbody := ua; rprotocol := protocol req;
             status := str "200 OK"; rheaders := ∅ |})
     | None => Panic UnwrapNone
     end, fs).
Proof.
  intros P V Q. unfold process. rewrite P. cbv zeta. rewrite V, Q, GET_is_GET.
  replace (bool_decide (str "/user-agent" = str "/")) with false by reflexivity.
  replace (starts_with (str "/echo/") (str "/user-agent")) with false by reflexivity.
  replace (bool_decide (str "/user-agent" = str "/user-agent")) with true
    by reflexivity.
  cbn [andb]. destruct (headers req !! str "User-Agent"); reflexivity.
Qed.

Lemma process_post_files arg fs chunk req dir :
  from_byte_array (read_buf chunk) = Ok req ->
  verb req = str "POST" -> starts_with (str "/files/") (path req) = true ->
  directory arg = Some dir ->
  process arg fs chunk =
    (Ok {| rbody := []; rprotocol := protocol req;
           status := str "201 Created"; rheaders := ∅ |},
     (fs_write fs (file_path dir (drop 6 (path req))) (as_bytes (body req))).2).
Proof.
  intros P V S D. unfold process. rewrite P. cbv zeta.
  rewrite V, POST_not_GET, POST_is_POST. cbn [andb]. rewrite S.
  rewrite (files_split _ S), D. reflexivity.
Qed.

Lemma process_files_no_dir arg fs chunk req :
  from_byte_array (read_buf chunk) = Ok req ->
  (verb req = str "GET" \/ verb req = str "POST") ->
  starts_with (str "/files/") (path req) = true ->
  directory arg = None ->
  process arg fs chunk = (Panic UnwrapNone, fs).
Proof.
  intros P V S D. unfold process. rewrite P. cbv zeta.
  destruct V as [V|V]; rewrite V.
  - rewrite GET_is_GET, (not_root_of_prefix _ _ S) by (cbn; lia).
    rewrite (not_echo_of_files _ S), (not_user_agent_of_files _ S), S.
    cbn [andb]. rewrite (files_split _ S), D. reflexivity.
  - rewrite POST_not_GET, POST_is_POST. cbn [andb]. rewrite S.
    rewrite (files_split _ S), D. reflexivity.
Qed.

(** * The claims *)

(** ** C3 *)

(** C3 (as stated): with no separator, the whole buffer would be the
    head; here that head has the three request-line tokens, yet the
    parser produces no request. *)
Lemma C3_counterexample :
  split_once sep (from_utf8_lossy (read_buf truncated_get)) = None /\
  length (split_whitespace (from_utf8_lossy (read_buf truncated_get))) = 3%nat /\
  from_byte_array (read_buf truncated_get) =
    Panic (ExpectFailed "Request should contains verb").
Proof. vm_compute. auto. Qed.

(** C3 (amended): when the decoded buffer has no [\r\n\r\n], the
    parser falls back to the default pair (empty head, empty body), so
    the request line has no verb and the parse panics. *)
Theorem C3_no_separator_panics (buf : bytes) :
  split_once sep (from_utf8_lossy buf) = None ->
  from_byte_array buf = Panic (ExpectFailed "Request should contains verb").
Proof. intros H. unfold from_byte_array. rewrite H. reflexivity. Qed.

Lemma C3_witness :
  split_once sep (from_utf8_lossy (read_buf truncated_get)) = None /\
  from_byte_array (read_buf truncated_get) =
    Panic (ExpectFailed "Request should contains verb").
Proof.
  assert (H : split_once sep (from_utf8_lossy (read_buf truncated_get)) = None)
    by (vm_compute; reflexivity).
  split; [exact H | apply (C3_no_separator_panics _ H)].
Defined.

(** ** C5 *)

(** C5: a 200 response with an empty body and no headers serializes to
    exactly [protocol ++ " 200 OK\r\n\r\n"]. *)
Theorem C5_serialize_empty_200 (p : rstring) :
  exists r, HttpResponse_new [] p 200 = Ok r /\
    to_string r = p ++ str " 200 OK" ++ crlf ++ crlf /\
    as_bytes (to_string r) = as_bytes p ++ str " 200 OK" ++ crlf ++ crlf.
Proof.
  eexists; split; [apply new_200|].
  assert (E : to_string {| rbody := []; rprotocol := p; status := str "200 OK";
                          rheaders := ∅ |} = p ++ str " 200 OK" ++ crlf ++ crlf).
  { unfold to_string, fmt_entries.
    replace (map_to_list _) with (@nil (rstring * rstring)) by reflexivity.
    cbn [foldl rbody rprotocol status]. rewrite <- !app_assoc. reflexivity. }
  split; [exact E|]. rewrite E. unfold as_bytes.
  rewrite map_app, concat_app. reflexivity.
Qed.

(** ** C6 *)

(** C6: [HttpResponse::new] accepts exactly 200, 201 and 404, with the
    reason phrases "OK", "Created" and "Not Found", and panics otherwise;
    no request makes [process] reach that panic, and every response it
    sends has one of the three status lines. *)
Theorem C6_status_codes :
  (forall (b p : rstring) (n : Z),
    match HttpResponse_new b p n with
    | Ok r =>
      (n = 200 /\ status r = str "200 OK") \/
      (n = 201 /\ status r = str "201 Created") \/
      (n = 404 /\ status r = str "404 Not Found")
    | Panic f => f = StatusNotSupported /\ n <> 200 /\ n <> 201 /\ n <> 404
    end) /\
  (forall (arg : Args) (fs : FS) (chunk : bytes),
    match (process arg fs chunk).1 with
    | Ok r => valid_status (status r)
    | Panic f => f <> StatusNotSupported
    end).
Proof.
  split; [|apply process_status].
  intros b p n. unfold HttpResponse_new.
  destruct (Z.eqb_spec n 200) as [->|H200]; [left; auto|].
  destruct (Z.eqb_spec n 404) as [->|H404]; [right; right; auto|].
  destruct (Z.eqb_spec n 201) as [->|H201]; [right; left; auto|].
  cbn. auto.
Qed.

(** ** C7 *)

(** C7: on [GET /user-agent], a parsed header map without the key
    [User-Agent] makes the handler panic (nothing is written back);
    with the key, the response is 200 with the header's value as body
    and the plain-text headers. *)
Theorem C7_user_agent (arg : Args) (fs : FS) (chunk : bytes) (req : HttpRequest) :
  from_byte_array (read_buf chunk) = Ok req ->
  verb req = str "GET" -> path req = str "/user-agent" ->
  (headers req !! str "User-Agent" = None ->
     (process arg fs chunk).1 = Panic UnwrapNone /\
     wire (process arg fs chunk).1 = None) /\
  (forall v, headers req !! str "User-Agent" = Some v ->
     exists r, (process arg fs chunk).1 = Ok r /\
       rbody r = v /\ status r = str "200 OK" /\
       rheaders r !! str "Content-Type" = Some (str "text/plain") /\
       rheaders r !! str "Content-Length" = Some (usize_to_string (len v))).
Proof.
  intros P V Q. rewrite (process_get_user_agent arg fs chunk req P V Q).
  split.
  - intros ->. auto.
  - intros v ->. eexists; split; [reflexivity|].
    cbn [rbody status rheaders prepare_plain_text_headers].
    split; [reflexivity|]. split; [reflexivity|].
    rewrite lookup_insert_ne by (vm_compute; discriminate).
    rewrite lookup_insert_eq, lookup_insert_eq. auto.
Qed.

Lemma C7_witness :
  from_byte_array (read_buf ua_request) = Ok (parsed ua_request) /\
  exists r, (process args_tmp fs_empty ua_request).1 = Ok r /\
    rbody r = str "curl/8.0".
Proof.
  assert (P : from_byte_array (read_buf ua_request) = Ok (parsed ua_request))
    by (vm_compute; reflexivity).
  split; [exact P|].
  destruct (C7_user_agent args_tmp fs_empty ua_request (parsed ua_request) P
              (eq_refl _) (eq_refl _)) as [_ H].
  destruct (H (str "curl/8.0") (eq_refl _)) as (r & Hr & Hb & _).
  exists r. split; [exact Hr | exact Hb].
Defined.

(** ** C8 *)

(** C8: a POST to [/files/...] with a directory configured answers 201
    with an empty body; the response is the same on every file system,
    in particular when the write fails and leaves the files unchanged. *)
Theorem C8_post_files_ignores_write (arg : Args) (fs : FS) (chunk : bytes)
    (req : HttpRequest) (dir : rstring) :
  directory arg = Some dir ->
  from_byte_array (read_buf chunk) = Ok req ->
  verb req = str "POST" -> starts_with (str "/files/") (path req) = true ->
  let p := file_path dir (drop 6 (path req)) in
  (process arg fs chunk).1 =
    Ok {| rbody := []; rprotocol := protocol req;
          status := str "201 Created"; rheaders := ∅ |} /\
  (forall fs', (process arg fs' chunk).1 = (process arg fs chunk).1) /\
  (process arg fs chunk).2 = (fs_write fs p (as_bytes (body req))).2 /\
  (p ∈ unwritable fs ->
     (fs_write fs p (as_bytes (body req))).1 = false /\
     (process arg fs chunk).2 = fs).
Proof.
  intros D P V S p.
  pose proof (fun fs0 => process_post_files arg fs0 chunk req dir P V S D) as E.
  split; [rewrite E; reflexivity|].
  split; [intros fs'; rewrite !E; reflexivity|].
  split; [rewrite E; reflexivity|].
  intros Hp. rewrite E. cbn [snd]. unfold fs_write.
  unfold p in *. rewrite bool_decide_eq_true_2 by exact Hp. auto.
Qed.

Lemma C8_witness :
  from_byte_array (read_buf post_request) = Ok (parsed post_request) /\
  (process args_tmp fs_readonly post_request).1 =
    Ok {| rbody := []; rprotocol := protocol (parsed post_request);
          status := str "201 Created"; rheaders := ∅ |} /\
  (process args_tmp fs_readonly post_request).2 = fs_readonly.
Proof.
  assert (P : from_byte_array (read_buf post_request) = Ok (parsed post_request))
    by (vm_compute; reflexivity).
  destruct (C8_post_files_ignores_write args_tmp fs_readonly post_request
              (parsed post_request) (str "/tmp") eq_refl P eq_refl eq_refl)
    as (H1 & _ & _ & H4).
  split; [exact P|]. split; [exact H1|].
  destruct H4 as [_ H4]; [|exact H4].
  change (unwritable fs_readonly) with ({[str "/tmp//report.txt"]} : gset rstring).
  apply elem_of_singleton. vm_compute. reflexivity.
Defined.

(** ** C9 *)

(** C9: without [--directory], a GET or POST on [/files/...] unwraps
    the absent directory: the task panics, nothing is written back and
    the files are untouched. *)
Theorem C9_files_without_directory (arg : Args) (fs : FS) (chunk : bytes)
    (req : HttpRequest) :
  directory arg = None ->
  from_byte_array (read_buf chunk) = Ok req ->
  (verb req = str "GET" \/ verb req = str "POST") ->
  starts_with (str "/files/") (path req) = true ->
  (process arg fs chunk).1 = Panic UnwrapNone /\
  wire (process arg fs chunk).1 = None /\
  (process arg fs chunk).2 = fs.
Proof.
  intros D P V S. rewrite (process_files_no_dir arg fs chunk req P V S D).
  auto.
Qed.

Lemma C9_witness :
  from_byte_array (read_buf get_file_request) = Ok (parsed get_file_request) /\
  (process args_none fs_empty get_file_request).1 = Panic UnwrapNone.
Proof.
  assert (P : from_byte_array (read_buf get_file_request) =
              Ok (parsed get_file_request)) by (vm_compute; reflexivity).
  split; [exact P|].
  apply (C9_files_without_directory args_none fs_empty get_file_request
           (parsed get_file_request) eq_refl P (or_introl eq_refl) eq_refl).
Defined.

(** ** C10 *)

(** C10: when the single read leaves part of the 1024-byte buffer
    unfilled and the data holds the separator, the request body is the
    text after the first separator followed by one U+0000 per unfilled
    byte; a POST on [/files/...] writes exactly that body. *)
Theorem C10_nul_padded_body (chunk h b : bytes) :
  (length chunk < BUF_SIZE)%nat ->
  split_once sep (from_utf8_lossy chunk) = Some (h, b) ->
  let nuls := replicate (BUF_SIZE - length chunk) 0 in
  nuls <> [] /\
  (forall req, from_byte_array (read_buf chunk) = Ok req ->
     body req = b ++ nuls) /\
  (forall arg fs req dir,
     directory arg = Some dir ->
     from_byte_array (read_buf chunk) = Ok req ->
     verb req = str "POST" -> starts_with (str "/files/") (path req) = true ->
     (process arg fs chunk).2 =
       (fs_write fs (file_path dir (drop 6 (path req))) (as_bytes (b ++ nuls))).2).
Proof.
  intros L Hs nuls.
  assert (B : forall req, from_byte_array (read_buf chunk) = Ok req ->
                body req = b ++ nuls).
  { intros req P. unfold from_byte_array in P.
    rewrite decoded_buffer in P by lia.
    rewrite (split_once_app _ _ _ _ _ Hs) in P. res_simpl.
    repeat case_match; simplify_eq; reflexivity. }
  split; [|split; [exact B|]].
  - unfold nuls. destruct (BUF_SIZE - length chunk)%nat eqn:E; [lia|]. discriminate.
  - intros arg fs req dir D P V S.
    rewrite (process_post_files arg fs chunk req dir P V S D). cbn [snd].
    rewrite (B req P). reflexivity.
Qed.

Lemma C10_witness :
  (length post_request < BUF_SIZE)%nat /\
  split_once sep (from_utf8_lossy post_request) =
    Some (str "POST /files/report.txt HTTP/1.1", str "hello") /\
  body (parsed post_request) =
    str "hello" ++ replicate (BUF_SIZE - length post_request) 0.
Proof.
  assert (L : (length post_request < BUF_SIZE)%nat) by (vm_compute; lia).
  assert (Hs : split_once sep (from_utf8_lossy post_request) =
               Some (str "POST /files/report.txt HTTP/1.1", str "hello"))
    by (vm_compute; reflexivity).
  split; [exact L|]. split; [exact Hs|].
  destruct (C10_nul_padded_body post_request _ _ L Hs) as (_ & B & _).
  apply B. vm_compute. reflexivity.
Defined.

(** ** C4 *)

(** C4 (as stated): the name is cut at the first colon, not stripped of
    a trailing one ("X-Id:a:" gives "X-Id", where the claim reads
    "X-Id:a"), and a name token without a colon makes the parse panic. *)
Lemma C4_counterexample :
  strip_trailing_colon (str "X-Id:a:") = str "X-Id:a" /\
  from_byte_array (read_buf colon_in_value_request) =
    Ok (parsed colon_in_value_request) /\
  headers (parsed colon_in_value_request) !! str "X-Id:a" = None /\
  headers (parsed colon_in_value_request) !! str "X-Id" = Some (str "1") /\
  from_byte_array (read_buf colonless_request) = Panic UnwrapNone.
Proof. vm_compute. repeat split. Qed.

(** C4 (amended): when the head has at least three tokens, the tokens
    after the first three are read pairwise, an unpaired last token is
    dropped, each name is its token up to the first ':', each value is
    the next token as it is, later pairs overwrite earlier ones, and a
    name token without ':' makes the parse panic. *)
Theorem C4_headers_pairwise (buf h b v p pr : rstring) (rest : list rstring) :
  split_once sep (from_utf8_lossy buf) = Some (h, b) ->
  split_whitespace h = v :: p :: pr :: rest ->
  from_byte_array buf =
    match header_pairs rest with
    | Some ps =>
      Ok {| verb := v; path := p; protocol := pr;
            headers := insert_all ∅ ps; body := b |}
    | None => Panic UnwrapNone
    end.
Proof. apply from_byte_array_shape. Qed.

Lemma C4_witness :
  split_once sep (from_utf8_lossy (read_buf colon_in_value_request)) =
    Some (str "GET / HTTP/1.1" ++ crlf ++ str "X-Id:a: 1",
          replicate (BUF_SIZE - length colon_in_value_request) 0) /\
  from_byte_array (read_buf colon_in_value_request) =
    Ok {| verb := str "GET"; path := str "/"; protocol := str "HTTP/1.1";
          headers := insert_all ∅ [(str "X-Id", str "1")];
          body := replicate (BUF_SIZE - length colon_in_value_request) 0 |}.
Proof.
  assert (Hs : split_once sep (from_utf8_lossy (read_buf colon_in_value_request)) =
    Some (str "GET / HTTP/1.1" ++ crlf ++ str "X-Id:a: 1",
          replicate (BUF_SIZE - length colon_in_value_request) 0))
    by (vm_compute; reflexivity).
  split; [exact Hs|].
  apply (C4_headers_pairwise _ _ _ (str "GET") (str "/") (str "HTTP/1.1")
           [str "X-Id:a:"; str "1"] Hs).
  vm_compute. reflexivity.
Defined.

(** ** C2 *)






(** ** C1 *)

(** C1: the round trip returns the posted body followed by the 984
    U+0000 characters of the unfilled read buffer (40 of its 1024 bytes
    were read), not the posted body itself. *)
Theorem C1_roundtrip_nul_padded :
  length post_request = 40%nat /\
  (process args_tmp fs_empty post_request).1 =
    Ok {| rbody := []; rprotocol := str "HTTP/1.1";
          status := str "201 Created"; rheaders := ∅ |} /\
  (process args_tmp fs_after_post get_file_request).1 = Ok get_after_post /\
  status get_after_post = str "200 OK" /\
  rheaders get_after_post !! str "Content-Type" =
    Some (str "application/octet-stream") /\
  rbody get_after_post = str "hello" ++ replicate 984 0 /\
  rbody get_after_post <> str "hello".
Proof.
  split; [reflexivity|].
  split; [vm_compute; reflexivity|].
  split; [vm_compute; reflexivity|].
  split; [vm_compute; reflexivity|].
  split; [vm_compute; reflexivity|].
  split; [vm_compute; reflexivity|].
  intros E. vm_compute in E. discriminate E.
Qed.
